(** * display_qceff_table.py: a shallow embedding in Rocq

    The script reads a QCEFF table (a CSV file) and prints a summary table
    and, on request, a detailed dump of each quantity.  Python strings are
    modelled as Stdlib [string] (ASCII characters); Python's string methods
    used by the script ([str.replace], [str.strip], [str.upper],
    [str.lower], slicing, [len], left-aligned f-string padding) are written
    out below.  [print] is modelled as appending its argument to an output
    list; exceptions are an explicit error in a small output monad that
    keeps what was printed before the exception was raised. *)

From Stdlib Require Import List Arith Lia Bool ZArith Ascii String.
Import ListNotations.
Open Scope string_scope.
Open Scope nat_scope.

(* ------------------------------------------------------------------ *)
(** ** Python string built-ins *)

Module Py.

(** Characters for which [str.isspace] holds, restricted to ASCII:
    \t \n \x0b \x0c \r, the separators \x1c .. \x1f and the space. *)
Definition is_space (c : ascii) : bool :=
  let n := nat_of_ascii c in
  ((9 <=? n) && (n <=? 13)) || ((28 <=? n) && (n <=? 32)).

Fixpoint lstrip (s : string) : string :=
  match s with
  | EmptyString => EmptyString
  | String c s' => if is_space c then lstrip s' else s
  end.

Fixpoint rstrip (s : string) : string :=
  match s with
  | EmptyString => EmptyString
  | String c s' =>
      let r := rstrip s' in
      match r with
      | EmptyString => if is_space c then EmptyString else String c EmptyString
      | _ => String c r
      end
  end.

(** [s.strip()] *)
Definition strip (s : string) : string := rstrip (lstrip s).

Definition upper_char (c : ascii) : ascii :=
  let n := nat_of_ascii c in
  if (97 <=? n) && (n <=? 122) then ascii_of_nat (n - 32) else c.

Definition lower_char (c : ascii) : ascii :=
  let n := nat_of_ascii c in
  if (65 <=? n) && (n <=? 90) then ascii_of_nat (n + 32) else c.

(** [s.upper()] *)
Fixpoint upper (s : string) : string :=
  match s with
  | EmptyString => EmptyString
  | String c s' => String (upper_char c) (upper s')
  end.

(** [s.lower()] *)
Fixpoint lower (s : string) : string :=
  match s with
  | EmptyString => EmptyString
  | String c s' => String (lower_char c) (lower s')
  end.

(** [s.startswith(old)] at the current position, as used by the scan of
    [str.replace]. *)
Fixpoint starts_with (old s : string) : bool :=
  match old, s with
  | EmptyString, _ => true
  | String _ _, EmptyString => false
  | String a old', String b s' => Ascii.eqb a b && starts_with old' s'
  end.

(** The left-to-right scan of [str.replace] for a non-empty [old]: at a
    match, [new] is emitted and the remaining [length old - 1] characters
    of the match are skipped, so occurrences never overlap. *)
Fixpoint replace_scan (skip : nat) (old new s : string) : string :=
  match s with
  | EmptyString => EmptyString
  | String c s' =>
      match skip with
      | S k => replace_scan k old new s'
      | O =>
          if starts_with old s
          then new ++ replace_scan (length old - 1) old new s'
          else String c (replace_scan 0 old new s')
      end
  end.

(** [str.replace] with an empty [old] inserts [new] around every character. *)
Fixpoint replace_empty (new s : string) : string :=
  match s with
  | EmptyString => new
  | String c s' => new ++ String c (replace_empty new s')
  end.

(** [s.replace(old, new)] *)
Definition replace (old new s : string) : string :=
  match old with
  | EmptyString => replace_empty new s
  | _ => replace_scan 0 old new s
  end.

(** [s[:n]] *)
Fixpoint slice_to (n : nat) (s : string) : string :=
  match n, s with
  | O, _ => EmptyString
  | _, EmptyString => EmptyString
  | S n', String c s' => String c (slice_to n' s')
  end.

Fixpoint rep (n : nat) (s : string) : string :=
  match n with
  | O => EmptyString
  | S n' => s ++ rep n' s
  end.

(** [f"{s:<n}"]: left-aligned, padded with spaces, never truncated. *)
Definition ljust (n : nat) (s : string) : string :=
  s ++ rep (n - length s) " ".

(** ["\n" + s] *)
Definition nl (s : string) : string := String (ascii_of_nat 10) s.

(** [str(n)] for a non-negative integer: its decimal digits. *)
Fixpoint decimal_aux (fuel n : nat) (acc : string) : string :=
  match fuel with
  | O => acc
  | S fuel' =>
      let acc' := String (ascii_of_nat (48 + n mod 10)) acc in
      if n <? 10 then acc' else decimal_aux fuel' (n / 10) acc'
  end.

Definition decimal (n : nat) : string := decimal_aux (S n) n EmptyString.

Definition dquote : ascii := ascii_of_nat 34.
Definition squote : ascii := ascii_of_nat 39.
Definition backslash : ascii := ascii_of_nat 92.

Fixpoint has_char (c : ascii) (s : string) : bool :=
  match s with
  | EmptyString => false
  | String d s' => Ascii.eqb c d || has_char c s'
  end.

Definition hex_digit (n : nat) : ascii :=
  if n <? 10 then ascii_of_nat (48 + n) else ascii_of_nat (87 + n).

(** One character inside [repr(s)] quoted with [q]: the backslash and the
    quote are escaped, \t \n \r by name, the other control characters as
    [\xhh]. *)
Definition repr_char (q c : ascii) : string :=
  let n := nat_of_ascii c in
  if Ascii.eqb c backslash then String backslash (String backslash EmptyString)
  else if Ascii.eqb c q then String backslash (String q EmptyString)
  else if n =? 9 then String backslash "t"
  else if n =? 10 then String backslash "n"
  else if n =? 13 then String backslash "r"
  else if (n <? 32) || (n =? 127) then
    String backslash (String "x" (String (hex_digit (n / 16))
                                   (String (hex_digit (n mod 16)) EmptyString)))
  else String c EmptyString.

Fixpoint repr_body (q : ascii) (s : string) : string :=
  match s with
  | EmptyString => EmptyString
  | String c s' => repr_char q c ++ repr_body q s'
  end.

(** [repr(s)]: single quotes, unless [s] holds a single quote and no
    double quote. *)
Definition repr (s : string) : string :=
  let q := if has_char squote s && negb (has_char dquote s) then dquote else squote in
  String q (repr_body q s ++ String q EmptyString).

End Py.

(* ------------------------------------------------------------------ *)
(** ** [format_dist] (lines 110-134) *)

(** [x[:18] + '..' if len(x) > 20 else x], written identically at line 114
    (distribution label) and at line 163 (obs_inc_info label). *)
Definition truncate_label (x : string) : string :=
  if 20 <? length x then Py.slice_to 18 x ++ ".." else x.

Definition format_dist (dist bounded_below bounded_above lower upper : string)
    : string :=
  let dist := Py.replace "BOUNDED_NORMAL_RH_DISTRIBUTION" "BNRH_DISTRIBUTION" dist in
  let dist_short := truncate_label dist in
  if String.eqb (Py.upper (Py.strip dist)) "NORMAL_DISTRIBUTION" then dist_short
  else
    let left_bracket :=
      if String.eqb (Py.upper (Py.strip bounded_below)) "TRUE"
         || String.eqb (Py.strip bounded_below) ".true."
      then "[" else "(" in
    let right_bracket :=
      if String.eqb (Py.upper (Py.strip bounded_above)) "TRUE"
         || String.eqb (Py.strip bounded_above) ".true."
      then "]" else ")" in
    let lower_str := Py.strip lower in
    let upper_str := Py.strip upper in
    let lower_str :=
      if String.eqb lower_str EmptyString || String.eqb (Py.lower lower_str) "none"
         || String.eqb lower_str "-888888"
      then "-inf" else lower_str in
    let upper_str :=
      if String.eqb upper_str EmptyString || String.eqb (Py.lower upper_str) "none"
         || String.eqb upper_str "-888888"
      then "inf" else upper_str in
    dist_short ++ " " ++ left_bracket ++ lower_str ++ "," ++ upper_str ++ right_bracket.

(* ------------------------------------------------------------------ *)
(** ** Output and exceptions *)

(** The exceptions the script can meet: [IndexError] from [row[i]] on a
    short list, [FileNotFoundError] from [open], another [OSError] of
    [open] ([PermissionError], [IsADirectoryError], ...) with its
    [errno], [strerror] and the [filename] it was raised for, and any
    other error of the runtime (a [csv.Error], a decoding error) with its
    message [str(e)]. *)
Inductive exn :=
| IndexError
| FileNotFoundError
| OSError (errno : nat) (strerror filename : string)
| OtherError (msg : string).

(** [str(e)] as printed by the generic handler of [main]. *)
Definition exn_msg (e : exn) : string :=
  match e with
  | IndexError => "list index out of range"
  | FileNotFoundError => "No such file or directory"
  | OSError n m f => "[Errno " ++ Py.decimal n ++ "] " ++ m ++ ": " ++ Py.repr f
  | OtherError m => m
  end.

Inductive result (A : Type) :=
| Ok (a : A)
| Raised (e : exn).
Arguments Ok {A} a.
Arguments Raised {A} e.

(** A computation reads the output printed so far and returns its result
    together with the extended output; a raised exception keeps what was
    printed before it. *)
Definition M (A : Type) : Type := list string -> result A * list string.

Definition ret {A} (a : A) : M A := fun o => (Ok a, o).
Definition bind {A B} (m : M A) (k : A -> M B) : M B :=
  fun o => match m o with
           | (Ok a, o') => k a o'
           | (Raised e, o') => (Raised e, o')
           end.
Definition raise {A} (e : exn) : M A := fun o => (Raised e, o).
Definition print (s : string) : M unit := fun o => (Ok tt, app o [s]).

Notation "x <- m ;; k" := (bind m (fun x => k))
  (at level 61, m at next level, right associativity).
Notation "m ;; k" := (bind m (fun _ => k))
  (at level 61, right associativity).

(** [xs[i]] for a non-negative index. *)
Definition index {A} (xs : list A) (i : nat) : M A :=
  match nth_error xs i with
  | Some x => ret x
  | None => raise IndexError
  end.

(** [for x in xs: body(x)] *)
Fixpoint for_each {A} (xs : list A) (body : A -> M unit) : M unit :=
  match xs with
  | [] => ret tt
  | x :: xs' => body x ;; for_each xs' body
  end.

(* ------------------------------------------------------------------ *)
(** ** [display_summary_table] (lines 95-165) *)

(** [row[k] if len(row) > k else d] *)
Definition field_or (row : list string) (k : nat) (d : string) : string :=
  if k <? List.length row then nth k row EmptyString else d.

(** The line printed for one row, once [row[0]] has been read as [row0]
    (lines 137-165). *)
Definition summary_line (row0 : string) (row : list string) : string :=
  let qty_name := Py.replace "QTY_" EmptyString row0 in
  let probit_infl :=
    format_dist (field_or row 5 "N/A") (field_or row 6 EmptyString)
      (field_or row 7 EmptyString) (field_or row 8 EmptyString)
      (field_or row 9 EmptyString) in
  let probit_state :=
    format_dist (field_or row 10 "N/A") (field_or row 11 EmptyString)
      (field_or row 12 EmptyString) (field_or row 13 EmptyString)
      (field_or row 14 EmptyString) in
  let probit_ext :=
    format_dist (field_or row 15 "N/A") (field_or row 16 EmptyString)
      (field_or row 17 EmptyString) (field_or row 18 EmptyString)
      (field_or row 19 EmptyString) in
  let obs_inc_info := field_or row 20 "N/A" in
  let obs_inc_info := truncate_label obs_inc_info in
  Py.ljust 30 qty_name ++ " " ++ Py.ljust 30 probit_infl ++ " "
  ++ Py.ljust 30 probit_state ++ " " ++ Py.ljust 30 probit_ext ++ " "
  ++ Py.ljust 20 obs_inc_info.

(** The body of the loop at line 136. *)
Definition summary_row (row : list string) : M unit :=
  row0 <- index row 0 ;;
  print (summary_line row0 row).

Definition summary_header : list string :=
  [Py.nl (Py.rep 144 "="); "SUMMARY TABLE"; Py.rep 144 "=";
   Py.ljust 30 "QUANTITY" ++ " " ++ Py.ljust 30 "PROBIT_INFL" ++ " "
   ++ Py.ljust 30 "PROBIT_STATE" ++ " " ++ Py.ljust 30 "PROBIT_EXT" ++ " "
   ++ Py.ljust 20 "OBS_INC_INFO";
   Py.rep 30 "-" ++ " " ++ Py.rep 30 "-" ++ " " ++ Py.rep 30 "-" ++ " "
   ++ Py.rep 30 "-" ++ " " ++ Py.rep 20 "-"].

Definition display_summary_table (data : list (list string)) : M unit :=
  for_each summary_header print ;;
  for_each data summary_row.

(* ------------------------------------------------------------------ *)
(** ** [display_quantity_info] (lines 43-92) *)

(** [print(f"{label}{row[k]}")]: [row[k]] is evaluated before printing. *)
Definition field_line (label : string) (row : list string) (k : nat) : M unit :=
  x <- index row k ;;
  print (label ++ x).

Definition display_quantity_info (qty_name : string) (row : list string) : M unit :=
  print (Py.nl (Py.rep 80 "=")) ;;
  print ("QUANTITY: " ++ qty_name) ;;
  print (Py.rep 80 "=") ;;
  print (Py.nl "OBS ERROR INFO:") ;;
  field_line "  Bounded Below: " row 1 ;;
  field_line "  Bounded Above: " row 2 ;;
  field_line "  Lower Bound:   " row 3 ;;
  field_line "  Upper Bound:   " row 4 ;;
  print (Py.nl "PROBIT INFLATION:") ;;
  field_line "  Dist Type:     " row 5 ;;
  field_line "  Bounded Below: " row 6 ;;
  field_line "  Bounded Above: " row 7 ;;
  field_line "  Lower Bound:   " row 8 ;;
  field_line "  Upper Bound:   " row 9 ;;
  print (Py.nl "PROBIT STATE:") ;;
  field_line "  Dist Type:     " row 10 ;;
  field_line "  Bounded Below: " row 11 ;;
  field_line "  Bounded Above: " row 12 ;;
  field_line "  Lower Bound:   " row 13 ;;
  field_line "  Upper Bound:   " row 14 ;;
  print (Py.nl "PROBIT EXTENDED STATE:") ;;
  field_line "  Dist Type:     " row 15 ;;
  field_line "  Bounded Below: " row 16 ;;
  field_line "  Bounded Above: " row 17 ;;
  field_line "  Lower Bound:   " row 18 ;;
  field_line "  Upper Bound:   " row 19 ;;
  print (Py.nl "OBS INC INFO:") ;;
  field_line "  Filter Kind:   " row 20 ;;
  field_line "  Bounded Below: " row 21 ;;
  field_line "  Bounded Above: " row 22 ;;
  field_line "  Lower Bound:   " row 23 ;;
  field_line "  Upper Bound:   " row 24.

(* ------------------------------------------------------------------ *)
(** ** [read_qceff_table] (lines 13-40) and [main] (lines 168-208) *)

Record table := mk_table {
  version : string;
  headers : list string;
  data : list (list string) }.

(** The file system as seen through [open(filename)] followed by
    [list(csv.reader(file))]: the parsed rows, or the exception raised by
    the runtime. *)
Definition file_system := string -> result (list (list string)).

Definition read_qceff_table (fs : file_system) (filename : string) : M table :=
  rows <- (match fs filename with
           | Ok rows => ret rows
           | Raised e => raise e
           end) ;;
  r0 <- index rows 0 ;;
  version_info <- index r0 0 ;;
  hdrs <- index rows 1 ;;
  ret (mk_table version_info hdrs (skipn 2 rows)).

(** The [try] block of [main], after argument parsing: [details] is
    [args.details] (the [--details] flag). *)
Definition main_body (fs : file_system) (filename : string) (details : bool)
    : M unit :=
  table_data <- read_qceff_table fs filename ;;
  print "QCEFF Table Display" ;;
  print ("File: " ++ filename) ;;
  print ("Version: " ++ version table_data) ;;
  display_summary_table (data table_data) ;;
  if details then
    print (Py.nl (Py.rep 80 "=")) ;;
    print "DETAILED INFORMATION" ;;
    print (Py.rep 80 "=") ;;
    for_each (data table_data)
      (fun row => qty_name <- index row 0 ;; display_quantity_info qty_name row) ;;
    print (Py.nl (Py.rep 80 "=")) ;;
    print "END OF REPORT" ;;
    print (Py.rep 80 "=")
  else ret tt.

(** [main]: the printed lines and the exit status of the process. *)
Definition main (fs : file_system) (filename : string) (details : bool)
    : list string * Z :=
  match main_body fs filename details [] with
  | (Ok _, out) => (out, 0%Z)
  | (Raised FileNotFoundError, out) =>
      (app out ["Error: File '" ++ filename ++ "' not found."], 1%Z)
  | (Raised e, out) => (app out ["Error processing file: " ++ exn_msg e], 1%Z)
  end.

Definition sample_fs (rows : list (list string)) : file_system :=
  fun f => if String.eqb f "t.csv" then Ok rows else Raised FileNotFoundError.


(* ------------------------------------------------------------------ *)
(** ** Vocabulary of the specification *)

(** Equality of two strings up to ASCII letter case, character by
    character. *)
Fixpoint ci_equal (s t : string) : bool :=
  match s, t with
  | EmptyString, EmptyString => true
  | String a s', String b t' =>
      Ascii.eqb (Py.lower_char a) (Py.lower_char b) && ci_equal s' t'
  | _, _ => false
  end.

(** A bound is absent when, after trimming, it is empty, is [none] up to
    case, or is the sentinel [-888888]. *)
Definition bound_absent (v : string) : bool :=
  let t := Py.strip v in
  String.eqb t EmptyString || ci_equal t "none" || String.eqb t "-888888".

Definition render_lower (v : string) : string :=
  if bound_absent v then "-inf" else Py.strip v.

Definition render_upper (v : string) : string :=
  if bound_absent v then "inf" else Py.strip v.

(** A boundedness flag is set when, after trimming, it is [TRUE] up to
    case or literally [.true.]. *)
Definition flag_set (f : string) : bool :=
  ci_equal (Py.strip f) "TRUE" || String.eqb (Py.strip f) ".true.".

(** The distribution label after the BNRH abbreviation. *)
Definition dist_label (dist : string) : string :=
  Py.replace "BOUNDED_NORMAL_RH_DISTRIBUTION" "BNRH_DISTRIBUTION" dist.

Definition is_normal (dist : string) : Prop :=
  Py.upper (Py.strip (dist_label dist)) = "NORMAL_DISTRIBUTION".

(** [pat] occurs somewhere in [s]. *)
Fixpoint occurs (pat s : string) : bool :=
  Py.starts_with pat s ||
  match s with
  | EmptyString => false
  | String _ s' => occurs pat s'
  end.

(** [open(f)] fails with an [OSError]: the file is missing, or it exists
    but cannot be opened for reading.  [open] records [f] as the
    exception's [filename]. *)
Definition open_fails (fs : file_system) (f : string) : Prop :=
  fs f = Raised FileNotFoundError \/ exists n m, fs f = Raised (OSError n m f).

Fixpoint all_chars (p : ascii -> bool) (s : string) : bool :=
  match s with
  | EmptyString => true
  | String c s' => p c && all_chars p s'
  end.

(** [s] is made of printable characters other than the quotes and the
    backslash, the characters [repr] shows as they are. *)
Definition plain_name (s : string) : bool :=
  all_chars (fun c => negb (Ascii.eqb c Py.squote) && negb (Ascii.eqb c Py.dquote)
                      && negb (Ascii.eqb c Py.backslash)
                      && (32 <=? nat_of_ascii c) && (nat_of_ascii c <? 127)) s.

(** How many printed lines are exactly [s]. *)
Definition count_lines (s : string) (out : list string) : nat :=
  List.length (filter (String.eqb s) out).

(** A printed line that is neither the title of the detail section nor
    the closing [END OF REPORT] line. *)
Definition plain_line (l : string) : bool :=
  negb (String.eqb l "DETAILED INFORMATION") && negb (String.eqb l "END OF REPORT").

(** The section of the detail dump that prints field [k] (1-4: obs error
    info, 5-9: probit inflation, 10-14: probit state, 15-19: probit
    extended state, 20-24: obs inc info). *)
Definition section_of (k : nat) : nat :=
  if k <=? 4 then 1 else if k <=? 9 then 2 else if k <=? 14 then 3
  else if k <=? 19 then 4 else 5.

(** A computation only appends to the output: run on [o] it returns what
    it returns on the empty output, after [o]. *)
Definition framed {A} (m : M A) : Prop :=
  forall o, m o = (fst (m []), app o (snd (m []))).

(** A computation keeps [P] true of every printed line. *)
Definition keeps {A} (P : string -> Prop) (m : M A) : Prop :=
  forall o, Forall P o -> Forall P (snd (m o)).

(* ------------------------------------------------------------------ *)
(** ** Lemmas on the string built-ins *)

Lemma ci_equal_lower :
  forall t s, Py.lower s = s -> ci_equal t s = String.eqb (Py.lower t) s.
Proof.
  induction t as [|a t IH]; destruct s as [|b s]; simpl; intros H;
    try reflexivity.
  injection H as Hb Hs.
  rewrite Hb, (IH s Hs). reflexivity.
Qed.

Lemma ci_equal_none (t : string) :
  ci_equal t "none" = String.eqb (Py.lower t) "none".
Proof. apply ci_equal_lower. reflexivity. Qed.

Ltac ascii_cases c :=
  destruct c as [[] [] [] [] [] [] [] []]; reflexivity.

Lemma lower_upper_T (c : ascii) :
  Ascii.eqb (Py.lower_char c) "t"%char = Ascii.eqb (Py.upper_char c) "T"%char.
Proof. ascii_cases c. Qed.

Lemma lower_upper_R (c : ascii) :
  Ascii.eqb (Py.lower_char c) "r"%char = Ascii.eqb (Py.upper_char c) "R"%char.
Proof. ascii_cases c. Qed.

Lemma lower_upper_U (c : ascii) :
  Ascii.eqb (Py.lower_char c) "u"%char = Ascii.eqb (Py.upper_char c) "U"%char.
Proof. ascii_cases c. Qed.

Lemma lower_upper_E (c : ascii) :
  Ascii.eqb (Py.lower_char c) "e"%char = Ascii.eqb (Py.upper_char c) "E"%char.
Proof. ascii_cases c. Qed.

Lemma ci_equal_TRUE (t : string) :
  ci_equal t "TRUE" = String.eqb (Py.upper t) "TRUE".
Proof.
  destruct t as [|c1 [|c2 [|c3 [|c4 [|c5 t]]]]]; simpl; try reflexivity;
  change (Py.lower_char "T"%char) with "t"%char;
  change (Py.lower_char "R"%char) with "r"%char;
  change (Py.lower_char "U"%char) with "u"%char;
  change (Py.lower_char "E"%char) with "e"%char;
  rewrite ?lower_upper_T, ?lower_upper_R, ?lower_upper_U, ?lower_upper_E;
  reflexivity.
Qed.

Lemma flag_set_code (f : string) :
  flag_set f = String.eqb (Py.upper (Py.strip f)) "TRUE"
               || String.eqb (Py.strip f) ".true.".
Proof. unfold flag_set. rewrite ci_equal_TRUE. reflexivity. Qed.

Lemma bound_absent_code (v : string) :
  bound_absent v = String.eqb (Py.strip v) EmptyString
                   || String.eqb (Py.lower (Py.strip v)) "none"
                   || String.eqb (Py.strip v) "-888888".
Proof. unfold bound_absent. rewrite ci_equal_none. reflexivity. Qed.

Lemma string_app_assoc (x y z : string) : (x ++ y) ++ z = x ++ y ++ z.
Proof. induction x as [|c x IH]; simpl; [reflexivity | rewrite IH; reflexivity]. Qed.

Lemma starts_with_self (p b : string) : Py.starts_with p (p ++ b) = true.
Proof.
  induction p as [|c p IH]; simpl; [reflexivity |].
  rewrite Ascii.eqb_refl, IH. reflexivity.
Qed.

Lemma occurs_prefix (p b : string) : occurs p (p ++ b) = true.
Proof.
  destruct p as [|c p]; [destruct b; reflexivity |]. simpl.
  rewrite Ascii.eqb_refl, starts_with_self. reflexivity.
Qed.

Lemma occurs_self (p : string) : occurs p p = true.
Proof.
  destruct p as [|c p]; [reflexivity |]. simpl.
  rewrite Ascii.eqb_refl.
  assert (E : forall q : string, Py.starts_with q q = true)
    by (induction q as [|d q IH]; simpl; [reflexivity | rewrite Ascii.eqb_refl, IH; reflexivity]).
  rewrite E. reflexivity.
Qed.

Lemma occurs_cons (p : string) (c : ascii) (t : string) :
  occurs p t = true -> occurs p (String c t) = true.
Proof. intros H. simpl. rewrite H, orb_true_r. reflexivity. Qed.

Lemma occurs_app_r (p a t : string) : occurs p t = true -> occurs p (a ++ t) = true.
Proof.
  intros H. induction a as [|c a IH]; simpl; [exact H |].
  rewrite IH, orb_true_r. reflexivity.
Qed.

Lemma repr_body_plain (s : string) :
  plain_name s = true -> Py.repr_body Py.squote s = s.
Proof.
  unfold plain_name. induction s as [|c s IH]; cbn [all_chars Py.repr_body];
    [reflexivity |].
  intros H. apply andb_true_iff in H as [Hc Hs].
  apply andb_true_iff in Hc as [Hc Hhi]. apply andb_true_iff in Hc as [Hc Hlo].
  apply andb_true_iff in Hc as [Hc Hb]. apply andb_true_iff in Hc as [Hq Hd].
  apply negb_true_iff in Hq, Hd, Hb.
  apply Nat.leb_le in Hlo. apply Nat.ltb_lt in Hhi.
  unfold Py.repr_char. rewrite Hb, Hq.
  destruct (Nat.eqb_spec (nat_of_ascii c) 9); [lia |].
  destruct (Nat.eqb_spec (nat_of_ascii c) 10); [lia |].
  destruct (Nat.eqb_spec (nat_of_ascii c) 13); [lia |].
  destruct (Nat.ltb_spec (nat_of_ascii c) 32); [lia |].
  destruct (Nat.eqb_spec (nat_of_ascii c) 127); [lia |].
  simpl. rewrite (IH Hs). reflexivity.
Qed.

Lemma plain_no_squote (s : string) :
  plain_name s = true -> Py.has_char Py.squote s = false.
Proof.
  unfold plain_name. induction s as [|c s IH]; cbn [all_chars Py.has_char];
    [reflexivity |].
  intros H. apply andb_true_iff in H as [Hc Hs].
  repeat (apply andb_true_iff in Hc as [Hc ?]).
  apply negb_true_iff in Hc. rewrite Ascii.eqb_sym, Hc, (IH Hs). reflexivity.
Qed.

(** A plain name is shown by [repr] between single quotes. *)
Lemma repr_plain (s : string) : plain_name s = true -> Py.repr s = "'" ++ s ++ "'".
Proof.
  intros H. unfold Py.repr. rewrite (plain_no_squote _ H). simpl.
  rewrite (repr_body_plain _ H). reflexivity.
Qed.

Lemma string_app_length (x y : string) :
  String.length (x ++ y) = String.length x + String.length y.
Proof. induction x as [|c x IH]; simpl; [reflexivity | rewrite IH; reflexivity]. Qed.

(** The shape of [format_dist] on a non-normal distribution. *)
Lemma format_dist_bracketed (d b a l u : string) :
  ~ is_normal d ->
  format_dist d b a l u =
  truncate_label (dist_label d) ++ " "
  ++ String (if flag_set b then "["%char else "("%char)
       (render_lower l ++ "," ++ render_upper u
        ++ String (if flag_set a then "]"%char else ")"%char) EmptyString).
Proof.
  unfold is_normal, format_dist, render_lower, render_upper.
  fold (dist_label d). intros Hn.
  destruct (String.eqb_spec (Py.upper (Py.strip (dist_label d))) "NORMAL_DISTRIBUTION")
    as [E|_]; [contradiction|].
  rewrite !flag_set_code, !bound_absent_code.
  destruct (_ || String.eqb (Py.strip b) ".true."),
    (_ || String.eqb (Py.strip a) ".true."); reflexivity.
Qed.

Lemma format_dist_normal_label (d b a l u : string) :
  is_normal d -> format_dist d b a l u = truncate_label (dist_label d).
Proof.
  unfold is_normal, format_dist. fold (dist_label d). intros Hn.
  rewrite Hn. reflexivity.
Qed.

Lemma format_dist_label_prefix (d b a l u : string) :
  exists rest, format_dist d b a l u = truncate_label (dist_label d) ++ rest.
Proof.
  destruct (String.eqb_spec (Py.upper (Py.strip (dist_label d))) "NORMAL_DISTRIBUTION")
    as [E|E].
  - exists EmptyString. rewrite (format_dist_normal_label d b a l u E).
    induction (truncate_label (dist_label d)) as [|c x IH]; simpl;
      [reflexivity | rewrite <- IH; reflexivity].
  - rewrite (format_dist_bracketed d b a l u E). eexists. reflexivity.
Qed.

Lemma slice_to_substring (n : nat) (s : string) :
  Py.slice_to n s = substring 0 n s.
Proof.
  revert s; induction n as [|n IH]; intros [|c s]; simpl; try reflexivity.
  rewrite IH. reflexivity.
Qed.

Lemma slice_to_length (n : nat) (s : string) :
  n <= String.length s -> String.length (Py.slice_to n s) = n.
Proof.
  revert s; induction n as [|n IH]; intros [|c s]; simpl; intros H;
    try reflexivity; try lia.
  rewrite IH; lia.
Qed.

Lemma starts_with_short (old s : string) :
  String.length s < String.length old -> Py.starts_with old s = false.
Proof.
  revert s; induction old as [|a old IH]; intros [|b s]; simpl; intros H;
    try lia; try reflexivity.
  rewrite IH by lia. apply andb_false_r.
Qed.

Lemma replace_scan_short (old new s : string) :
  String.length s < String.length old -> Py.replace_scan 0 old new s = s.
Proof.
  induction s as [|c s IH]; simpl; intros H; [reflexivity|].
  rewrite (starts_with_short old (String c s)) by (simpl; lia).
  rewrite IH by lia. reflexivity.
Qed.

Lemma dist_label_short (d : string) :
  String.length d <= 20 -> dist_label d = d.
Proof.
  intros H. unfold dist_label, Py.replace.
  apply replace_scan_short. simpl. lia.
Qed.

Lemma truncate_label_short (x : string) :
  String.length x <= 20 -> truncate_label x = x.
Proof.
  intros H. unfold truncate_label.
  destruct (Nat.ltb_spec 20 (String.length x)); [lia | reflexivity].
Qed.

Lemma truncate_label_long (x : string) :
  20 < String.length x -> truncate_label x = Py.slice_to 18 x ++ "..".
Proof.
  intros H. unfold truncate_label.
  destruct (Nat.ltb_spec 20 (String.length x)); [reflexivity | lia].
Qed.

Lemma replace_scan_no_occurrence (old new s : string) :
  occurs old s = false -> Py.replace_scan 0 old new s = s.
Proof.
  induction s as [|c s IH]; simpl; intros H; [reflexivity|].
  apply orb_false_iff in H as [H1 H2].
  rewrite H1, (IH H2). reflexivity.
Qed.

Lemma starts_with_app_long (old p x : string) :
  String.length old <= String.length p ->
  Py.starts_with old (p ++ x) = Py.starts_with old p.
Proof.
  revert p; induction old as [|a old IH]; intros [|b p]; simpl; intros H;
    try reflexivity; try lia.
  rewrite IH by lia. reflexivity.
Qed.

Lemma replace_scan_cons_nomatch (old new t : string) (c : ascii) :
  Py.starts_with old (String c t) = false ->
  Py.replace_scan 0 old new (String c t) = String c (Py.replace_scan 0 old new t).
Proof. intros H. simpl. rewrite H. reflexivity. Qed.

Lemma qty_replace_prefix (s : string) :
  Py.replace "QTY_" EmptyString ("QTY_" ++ s) = Py.replace "QTY_" EmptyString s.
Proof. reflexivity. Qed.

(** ["QTY_"] has no proper border, so an occurrence that overlaps the end
    of a prefix [p] free of ["QTY_"] cannot start inside [p]. *)
Lemma qty_starts_with_infix (c : ascii) (p s : string) :
  Py.starts_with "QTY_" (String c p) = false ->
  Py.starts_with "QTY_" (String c p ++ "QTY_" ++ s) = false.
Proof.
  intros H.
  destruct p as [|c2 [|c3 [|c4 p]]].
  1-3: simpl; rewrite ?andb_false_r; reflexivity.
  rewrite starts_with_app_long by (simpl; lia). exact H.
Qed.

Lemma qty_replace_infix (p s : string) :
  occurs "QTY_" p = false ->
  Py.replace "QTY_" EmptyString (p ++ "QTY_" ++ s)
  = p ++ Py.replace "QTY_" EmptyString s.
Proof.
  induction p as [|c p IH]; intros H.
  - apply qty_replace_prefix.
  - simpl in H. apply orb_false_iff in H as [H1 H2].
    unfold Py.replace at 1.
    change (String c p ++ "QTY_" ++ s) with (String c (p ++ "QTY_" ++ s)).
    rewrite replace_scan_cons_nomatch
      by exact (qty_starts_with_infix c p s H1).
    specialize (IH H2). unfold Py.replace at 1 in IH. rewrite IH.
    reflexivity.
Qed.

Lemma field_or_short (row : list string) (k : nat) (dflt : string) :
  List.length row <= k -> field_or row k dflt = dflt.
Proof.
  intros H. unfold field_or.
  destruct (Nat.ltb_spec k (List.length row)); [lia | reflexivity].
Qed.

(* ------------------------------------------------------------------ *)
(** ** Lemmas on the output monad *)

Create HintDb output.

Lemma framed_ret {A} (a : A) : framed (ret a).
Proof. intros o. unfold ret. simpl. rewrite app_nil_r. reflexivity. Qed.

Lemma framed_raise {A} (e : exn) : framed (@raise A e).
Proof. intros o. unfold raise. simpl. rewrite app_nil_r. reflexivity. Qed.

Lemma framed_print (s : string) : framed (print s).
Proof. intros o. reflexivity. Qed.

Lemma framed_index {A} (xs : list A) (i : nat) : framed (index xs i).
Proof.
  unfold index. destruct (nth_error xs i); [apply framed_ret | apply framed_raise].
Qed.

Lemma framed_bind {A B} (m : M A) (k : A -> M B) :
  framed m -> (forall a, framed (k a)) -> framed (bind m k).
Proof.
  intros Hm Hk o. unfold bind.
  rewrite (Hm o). destruct (m []) as [[a|e] l]; simpl.
  - rewrite (Hk a (app o l)), (Hk a l). simpl. rewrite app_assoc. reflexivity.
  - reflexivity.
Qed.

Lemma framed_for_each {A} (xs : list A) (body : A -> M unit) :
  (forall x, framed (body x)) -> framed (for_each xs body).
Proof.
  intros Hb. induction xs as [|x xs IH]; simpl.
  - apply framed_ret.
  - apply framed_bind; [apply Hb | intros _; exact IH].
Qed.

#[export] Hint Resolve framed_ret framed_raise framed_print framed_index
  framed_bind framed_for_each : output.

Lemma framed_field_line (label : string) (row : list string) (k : nat) :
  framed (field_line label row k).
Proof. unfold field_line. auto with output. Qed.
#[export] Hint Resolve framed_field_line : output.

Lemma framed_display_quantity_info (q : string) (row : list string) :
  framed (display_quantity_info q row).
Proof. unfold display_quantity_info. repeat (apply framed_bind; intros); auto with output. Qed.

Lemma framed_summary_row (row : list string) : framed (summary_row row).
Proof. unfold summary_row. auto with output. Qed.
#[export] Hint Resolve framed_display_quantity_info framed_summary_row : output.

Lemma keeps_ret {A} P (a : A) : keeps P (ret a).
Proof. intros o H. exact H. Qed.

Lemma keeps_raise {A} P (e : exn) : keeps P (@raise A e).
Proof. intros o H. exact H. Qed.

Lemma keeps_print (P : string -> Prop) (s : string) : P s -> keeps P (print s).
Proof.
  intros Hs o H. simpl. apply Forall_app. split; [exact H | constructor; auto].
Qed.

Lemma keeps_index {A} P (xs : list A) (i : nat) : keeps P (index xs i).
Proof. unfold index. destruct (nth_error xs i); [apply keeps_ret | apply keeps_raise]. Qed.

Lemma keeps_bind {A B} P (m : M A) (k : A -> M B) :
  keeps P m -> (forall a, keeps P (k a)) -> keeps P (bind m k).
Proof.
  intros Hm Hk o H. unfold bind.
  specialize (Hm o H). destruct (m o) as [[a|e] o']; simpl in *.
  - exact (Hk a o' Hm).
  - exact Hm.
Qed.

Lemma keeps_for_each {A} P (xs : list A) (body : A -> M unit) :
  (forall x, keeps P (body x)) -> keeps P (for_each xs body).
Proof.
  intros Hb. induction xs as [|x xs IH]; simpl.
  - apply keeps_ret.
  - apply keeps_bind; [apply Hb | intros _; exact IH].
Qed.

#[export] Hint Resolve keeps_ret keeps_raise keeps_index keeps_bind keeps_for_each : output.

Lemma rep_space_length (n : nat) : String.length (Py.rep n " ") = n.
Proof. induction n as [|n IH]; simpl; [reflexivity | rewrite IH; reflexivity]. Qed.

Lemma ljust_length (n : nat) (s : string) :
  String.length (Py.ljust n s) = Nat.max n (String.length s).
Proof. unfold Py.ljust. rewrite string_app_length, rep_space_length. lia. Qed.

Lemma ljust_ge (n : nat) (s : string) : n <= String.length (Py.ljust n s).
Proof. rewrite ljust_length. lia. Qed.

Lemma summary_line_length (row0 : string) (row : list string) :
  144 <= String.length (summary_line row0 row).
Proof.
  unfold summary_line. rewrite !string_app_length.
  repeat match goal with
  | |- context [String.length (Py.ljust ?n ?s)] =>
      generalize (ljust_ge n s); generalize (String.length (Py.ljust n s)); intros
  end.
  simpl. lia.
Qed.

Lemma plain_line_long (l : string) : 20 < String.length l -> plain_line l = true.
Proof.
  intros H. unfold plain_line.
  destruct (String.eqb_spec l "DETAILED INFORMATION") as [E|_];
    [subst l; simpl in H; lia|].
  destruct (String.eqb_spec l "END OF REPORT") as [E|_];
    [subst l; simpl in H; lia|].
  reflexivity.
Qed.

Lemma count_lines_app (s : string) (xs ys : list string) :
  count_lines s (app xs ys) = count_lines s xs + count_lines s ys.
Proof. unfold count_lines. rewrite filter_app, length_app. reflexivity. Qed.

Lemma count_lines_plain (xs : list string) :
  Forall (fun l => plain_line l = true) xs ->
  count_lines "DETAILED INFORMATION" xs = 0 /\ count_lines "END OF REPORT" xs = 0.
Proof.
  induction 1 as [|l xs Hl _ [IH1 IH2]]; [split; reflexivity|].
  unfold plain_line in Hl. apply andb_true_iff in Hl as [H1 H2].
  apply negb_true_iff in H1, H2. unfold count_lines in *. cbn [filter].
  rewrite String.eqb_sym in H1. rewrite String.eqb_sym in H2.
  rewrite H1, H2. split; assumption.
Qed.

(* ------------------------------------------------------------------ *)
(** ** The claims *)

(** C1: when [format_dist] shows bounds (a distribution other than the
    normal one), the lower bound renders as [-inf] and the upper bound as
    [inf] when, after trimming, it is empty, [none] up to case, or the
    literal [-888888] (the same literal for both bounds); any other bound
    renders trimmed and otherwise verbatim. *)
Theorem format_dist_bound_values (d b a l u : string) (Hn : ~ is_normal d) :
  exists lb rb,
    format_dist d b a l u =
    truncate_label (dist_label d) ++ " "
    ++ String lb (render_lower l ++ "," ++ render_upper u ++ String rb EmptyString).
Proof.
  rewrite (format_dist_bracketed d b a l u Hn). eexists. eexists. reflexivity.
Qed.

Lemma format_dist_bound_values_witness :
  ~ is_normal "GAMMA_DISTRIBUTION" /\
  exists lb rb,
    format_dist "GAMMA_DISTRIBUTION" "TRUE" "FALSE" " none " "-888888" =
    truncate_label (dist_label "GAMMA_DISTRIBUTION") ++ " "
    ++ String lb (render_lower " none " ++ "," ++ render_upper "-888888"
                  ++ String rb EmptyString).
Proof.
  assert (Hn : ~ is_normal "GAMMA_DISTRIBUTION")
    by (unfold is_normal; vm_compute; discriminate).
  split; [exact Hn | exact (format_dist_bound_values _ _ _ _ _ Hn)].
Defined.

(** C3: [format_dist] on the BNRH example of the specification. *)
Theorem format_dist_bnrh_example :
  format_dist "BOUNDED_NORMAL_RH_DISTRIBUTION" ".true." "FALSE" "-888888" "5.0"
  = "BNRH_DISTRIBUTION [-inf,5.0)".
Proof. vm_compute. reflexivity. Qed.

(** C8: for a distribution other than the normal one, the opening bracket
    is [\[] exactly when the trimmed bounded-below flag is [TRUE] up to
    case or literally [.true.] (otherwise [(]), and the closing bracket is
    [\]] exactly when the bounded-above flag is (otherwise [)]). *)
Theorem format_dist_brackets (d b a l u : string) (Hn : ~ is_normal d) :
  exists mid,
    format_dist d b a l u =
    truncate_label (dist_label d) ++ " "
    ++ String (if flag_set b then "["%char else "("%char)
         (mid ++ String (if flag_set a then "]"%char else ")"%char) EmptyString).
Proof.
  rewrite (format_dist_bracketed d b a l u Hn).
  exists (render_lower l ++ "," ++ render_upper u).
  rewrite !string_app_assoc. reflexivity.
Qed.

Lemma format_dist_brackets_witness :
  ~ is_normal "BNRH_DISTRIBUTION" /\
  exists mid,
    format_dist "BNRH_DISTRIBUTION" " True " ".TRUE." "0" "1" =
    truncate_label (dist_label "BNRH_DISTRIBUTION") ++ " "
    ++ String (if flag_set " True " then "["%char else "("%char)
         (mid ++ String (if flag_set ".TRUE." then "]"%char else ")"%char)
                   EmptyString).
Proof.
  assert (Hn : ~ is_normal "BNRH_DISTRIBUTION")
    by (unfold is_normal; vm_compute; discriminate).
  split; [exact Hn | exact (format_dist_brackets _ _ _ _ _ Hn)].
Defined.

(** C10: when [open] fails on the input path (the file is missing, or
    it exists but cannot be opened for reading: permission denied, a
    directory, ...), [main] prints exactly one line and exits with status
    1; nothing of the table is printed before it.  The line is
    ["Error: File '<f>' not found."] for a missing file and
    ["Error processing file: [Errno n] <strerror>: <repr(f)>"] otherwise,
    so it names the file: a plain name [f] appears in it between single
    quotes. *)
Theorem main_unreadable_file (fs : file_system) (f : string) (details : bool)
    (H : open_fails fs f) :
  exists msg,
    main fs f details = ([msg], 1%Z) /\
    (msg = "Error: File '" ++ f ++ "' not found." \/
     exists n m, msg = "Error processing file: [Errno " ++ Py.decimal n ++ "] "
                       ++ m ++ ": " ++ Py.repr f) /\
    (plain_name f = true -> occurs ("'" ++ f ++ "'") msg = true).
Proof.
  unfold main, main_body, read_qceff_table, bind, raise.
  destruct H as [H | [n [m H]]]; rewrite H; eexists; (split; [reflexivity |]).
  - split; [left; reflexivity |]. intros _.
    change ("Error: File '" ++ f ++ "' not found.")
      with ("Error: File " ++ ("'" ++ f ++ "'" ++ " not found.")).
    apply occurs_app_r.
    rewrite <- (string_app_assoc f "'" " not found."),
            <- (string_app_assoc "'" (f ++ "'") " not found.").
    apply occurs_prefix.
  - split; [right; exists n, m; reflexivity |]. intros Hp.
    simpl exn_msg. rewrite (repr_plain _ Hp).
    repeat first [apply occurs_self | apply occurs_cons | apply occurs_app_r].
Qed.

Lemma main_unreadable_file_witness :
  open_fails (fun _ => Raised (OSError 13 "Permission denied" "secret.csv")) "secret.csv" /\
  exists msg,
    main (fun _ => Raised (OSError 13 "Permission denied" "secret.csv")) "secret.csv" false
    = ([msg], 1%Z) /\
    (msg = "Error: File '" ++ "secret.csv" ++ "' not found." \/
     exists n m, msg = "Error processing file: [Errno " ++ Py.decimal n ++ "] "
                       ++ m ++ ": " ++ Py.repr "secret.csv") /\
    (plain_name "secret.csv" = true -> occurs ("'" ++ "secret.csv" ++ "'") msg = true).
Proof.
  assert (H : open_fails (fun _ => Raised (OSError 13 "Permission denied" "secret.csv"))
                "secret.csv")
    by (right; exists 13, "Permission denied"; reflexivity).
  split; [exact H | exact (main_unreadable_file _ _ false H)].
Defined.

(** C6: a label longer than 20 characters renders as its first 18
    characters followed by [..], which has length 20; a label of at most
    20 characters renders unchanged.  This truncation is the one applied
    to the distribution label after the BNRH substitution (the output of
    [format_dist] starts with it) and to the obs_inc_info label (the last
    column of a summary line). *)
Theorem truncate_label_rendering :
  (forall x, 20 < String.length x ->
     truncate_label x = substring 0 18 x ++ ".." /\
     String.length (truncate_label x) = 20) /\
  (forall x, String.length x <= 20 -> truncate_label x = x) /\
  (forall d b a l u, exists rest,
     format_dist d b a l u = truncate_label (dist_label d) ++ rest) /\
  (forall row0 row, exists pre,
     summary_line row0 row = pre ++ Py.ljust 20 (truncate_label (field_or row 20 "N/A"))).
Proof.
  split; [|split; [|split]].
  - intros x H. rewrite (truncate_label_long x H), slice_to_substring.
    split; [reflexivity|].
    rewrite string_app_length, <- slice_to_substring, slice_to_length by lia.
    reflexivity.
  - exact truncate_label_short.
  - exact format_dist_label_prefix.
  - intros row0 row. unfold summary_line. eexists.
    rewrite <- !string_app_assoc. reflexivity.
Qed.

Lemma truncate_label_rendering_witness :
  20 < String.length "BOUNDED_NORMAL_RH_DIST" /\
  truncate_label "BOUNDED_NORMAL_RH_DIST"
  = substring 0 18 "BOUNDED_NORMAL_RH_DIST" ++ ".." /\
  String.length (truncate_label "BOUNDED_NORMAL_RH_DIST") = 20 /\
  String.length "GAMMA_DISTRIBUTION" <= 20 /\
  truncate_label "GAMMA_DISTRIBUTION" = "GAMMA_DISTRIBUTION".
Proof.
  assert (H1 : 20 < String.length "BOUNDED_NORMAL_RH_DIST") by (simpl; lia).
  assert (H2 : String.length "GAMMA_DISTRIBUTION" <= 20) by (simpl; lia).
  destruct truncate_label_rendering as [T1 [T2 _]].
  destruct (T1 _ H1) as [E1 E2].
  split; [exact H1 | split; [exact E1 | split; [exact E2 |
    split; [exact H2 | exact (T2 _ H2)]]]].
Defined.

(** C7: on a distribution whose substituted, trimmed, upper-cased label
    is [NORMAL_DISTRIBUTION], [format_dist] returns only the (possibly
    truncated) label, whatever the flags and bounds; in particular
    [format_dist "NORMAL_DISTRIBUTION" ...] is [NORMAL_DISTRIBUTION]; and
    on such an input of at most 20 characters, applying [format_dist]
    again to its output gives the same string. *)
Theorem format_dist_normal (d b a l u : string) (Hn : is_normal d) :
  format_dist d b a l u = truncate_label (dist_label d) /\
  (forall b a l u, format_dist "NORMAL_DISTRIBUTION" b a l u = "NORMAL_DISTRIBUTION") /\
  (String.length d <= 20 -> forall b' a' l' u',
     format_dist (format_dist d b a l u) b' a' l' u' = format_dist d b a l u).
Proof.
  split; [|split].
  - exact (format_dist_normal_label d b a l u Hn).
  - intros b0 a0 l0 u0.
    rewrite format_dist_normal_label by (vm_compute; reflexivity).
    vm_compute. reflexivity.
  - intros Hs b' a' l' u'.
    assert (E : format_dist d b a l u = d).
    { rewrite (format_dist_normal_label d b a l u Hn), (dist_label_short d Hs).
      apply truncate_label_short. exact Hs. }
    rewrite E. rewrite (format_dist_normal_label d b' a' l' u' Hn).
    rewrite (dist_label_short d Hs). apply truncate_label_short. exact Hs.
Qed.

Lemma format_dist_normal_witness :
  is_normal " normal_distribution" /\
  format_dist (format_dist " normal_distribution" "TRUE" "TRUE" "0" "1")
    "x" "y" "z" "w"
  = format_dist " normal_distribution" "TRUE" "TRUE" "0" "1".
Proof.
  assert (Hn : is_normal " normal_distribution") by (vm_compute; reflexivity).
  assert (Hs : String.length " normal_distribution" <= 20) by (simpl; lia).
  split; [exact Hn|].
  destruct (format_dist_normal " normal_distribution" "TRUE" "TRUE" "0" "1" Hn)
    as [_ [_ H3]].
  exact (H3 Hs "x" "y" "z" "w").
Defined.

(** C2 (as corrected): for a non-empty row, the quantity column of its
    summary line is [row[0].replace('QTY_', '')]: Python's [str.replace]
    deletes every non-overlapping occurrence of [QTY_], scanning left to
    right.  The name is unchanged when it contains no [QTY_]; it loses
    its [QTY_] prefix when that is the only occurrence; and an occurrence
    after a [QTY_]-free part [p] is deleted as well. *)
Theorem summary_qty_name (row0 : string) (rest o : list string) :
  (exists tail, summary_row (row0 :: rest) o
     = (Ok tt, app o [Py.ljust 30 (Py.replace "QTY_" EmptyString row0) ++ tail])) /\
  (occurs "QTY_" row0 = false -> Py.replace "QTY_" EmptyString row0 = row0) /\
  (forall s, row0 = "QTY_" ++ s -> occurs "QTY_" s = false ->
     Py.replace "QTY_" EmptyString row0 = s) /\
  (forall p s, row0 = p ++ "QTY_" ++ s -> occurs "QTY_" p = false ->
     Py.replace "QTY_" EmptyString row0 = p ++ Py.replace "QTY_" EmptyString s).
Proof.
  split; [|split; [|split]].
  - eexists. reflexivity.
  - apply replace_scan_no_occurrence.
  - intros s E Hs. subst row0. rewrite qty_replace_prefix.
    apply replace_scan_no_occurrence. exact Hs.
  - intros p s E Hp. subst row0. apply qty_replace_infix. exact Hp.
Qed.

Lemma summary_qty_name_witness :
  occurs "QTY_" "QTY_TEMPERATURE" = true /\
  occurs "QTY_" "TEMPERATURE" = false /\
  Py.replace "QTY_" EmptyString "QTY_TEMPERATURE" = "TEMPERATURE" /\
  occurs "QTY_" "SALT_" = false /\
  Py.replace "QTY_" EmptyString "SALT_QTY_X" = "SALT_" ++ Py.replace "QTY_" EmptyString "X".
Proof.
  assert (H1 : occurs "QTY_" "TEMPERATURE" = false) by reflexivity.
  assert (H2 : occurs "QTY_" "SALT_" = false) by reflexivity.
  destruct (summary_qty_name "QTY_TEMPERATURE" [] []) as [_ [_ [T3 _]]].
  destruct (summary_qty_name "SALT_QTY_X" [] []) as [_ [_ [_ T4]]].
  split; [reflexivity | split; [exact H1 | split;
    [exact (T3 "TEMPERATURE" eq_refl H1) | split;
      [exact H2 | exact (T4 "SALT_" "X" eq_refl H2)]]]].
Defined.

(** C2 fails as stated: an occurrence of [QTY_] that is not a prefix is
    removed too, so the name [FOO_QTY_BAR] is shown as [FOO_BAR]. *)
Lemma summary_qty_name_counterexample :
  exists line,
    summary_row ["FOO_QTY_BAR"] [] = (Ok tt, [line]) /\
    Py.slice_to 30 line = Py.ljust 30 "FOO_BAR" /\
    Py.slice_to 30 line <> Py.ljust 30 "FOO_QTY_BAR".
Proof.
  eexists. split; [reflexivity|].
  split; vm_compute; [reflexivity | discriminate].
Qed.

(** C5 (as corrected): a non-empty row with fewer than 21 fields still
    yields a complete summary line of five columns, the last one (the
    obs_inc_info label) being [N/A]. *)
Theorem summary_short_row (row0 : string) (rest o : list string)
    (H : List.length (row0 :: rest) < 21) :
  exists q p1 p2 p3,
    summary_row (row0 :: rest) o =
    (Ok tt, app o [Py.ljust 30 q ++ " " ++ Py.ljust 30 p1 ++ " " ++ Py.ljust 30 p2
                   ++ " " ++ Py.ljust 30 p3 ++ " " ++ Py.ljust 20 "N/A"]).
Proof.
  do 4 eexists. unfold summary_row, index, bind, print, ret. simpl nth_error.
  unfold summary_line. rewrite (field_or_short (row0 :: rest) 20 "N/A") by lia.
  reflexivity.
Qed.

Lemma summary_short_row_witness :
  List.length ["QTY_U"; "x"; "y"] < 21 /\
  exists q p1 p2 p3,
    summary_row ["QTY_U"; "x"; "y"] [] =
    (Ok tt, app [] [Py.ljust 30 q ++ " " ++ Py.ljust 30 p1 ++ " " ++ Py.ljust 30 p2
                    ++ " " ++ Py.ljust 30 p3 ++ " " ++ Py.ljust 20 "N/A"]).
Proof.
  assert (H : List.length ["QTY_U"; "x"; "y"] < 21) by (simpl; lia).
  split; [exact H | exact (summary_short_row "QTY_U" ["x"; "y"] [] H)].
Defined.

(** C5 fails as stated for the empty row (a blank line of the CSV file):
    reading [row[0]] raises [IndexError], no summary line is printed and
    the run ends with status 1. *)
Lemma summary_short_row_counterexample :
  List.length ([] : list string) < 21 /\
  summary_row [] [] = (Raised IndexError, []) /\
  main (sample_fs [["QCEFF table version: 1"]; ["names"]; []]) "t.csv" false
  = (app ["QCEFF Table Display"; "File: t.csv"; "Version: QCEFF table version: 1"]
       (app summary_header ["Error processing file: list index out of range"]), 1%Z).
Proof.
  split; [simpl; lia | split; [reflexivity | vm_compute; reflexivity]].
Qed.

(** C4 (defect): with [--details], the detail dump reads [row[1]] ..
    [row[24]] without the length guards of the summary table, so a row of
    two fields aborts the run: the summary table is printed, the detail
    block of the row stops after its first field, and the handler prints
    the error and exits with status 1. *)
Theorem main_short_row_details :
  let out := main (sample_fs [["QCEFF table version: 1"]; ["names"];
                              ["QTY_X"; "TRUE"]]) "t.csv" true in
  snd out = 1%Z /\
  last (fst out) EmptyString = "Error processing file: list index out of range" /\
  count_lines "  Bounded Below: TRUE" (fst out) = 1 /\
  count_lines "END OF REPORT" (fst out) = 0.
Proof. vm_compute. repeat split. Qed.

(** C9 (defect, the same one as C4): with [--details], the section
    [DETAILED INFORMATION] is printed once, but a short first row aborts
    the dump, so the second row gets no detail block. *)
Theorem main_details_blocks_cut :
  let out := main (sample_fs [["QCEFF table version: 1"]; ["names"];
                              ["QTY_A"; "TRUE"]; ["QTY_B"]]) "t.csv" true in
  snd out = 1%Z /\
  count_lines "DETAILED INFORMATION" (fst out) = 1 /\
  count_lines "QUANTITY: QTY_A" (fst out) = 1 /\
  count_lines "QUANTITY: QTY_B" (fst out) = 0.
Proof. vm_compute. repeat split. Qed.

(* ------------------------------------------------------------------ *)
(** ** Further properties of the script *)

Lemma for_each_print (ls o : list string) :
  for_each ls print o = (Ok tt, app o ls).
Proof.
  revert o; induction ls as [|l ls IH]; intros o; simpl.
  - rewrite app_nil_r. reflexivity.
  - unfold bind. simpl. rewrite IH, <- app_assoc. reflexivity.
Qed.

Lemma field_or_firstn (row : list string) (n k : nat) (dflt : string) :
  k < n -> field_or (firstn n row) k dflt = field_or row k dflt.
Proof.
  intros Hk. unfold field_or. rewrite length_firstn, nth_firstn.
  destruct (Nat.ltb_spec k n); [|lia].
  destruct (Nat.ltb_spec k (Nat.min n (List.length row)));
    destruct (Nat.ltb_spec k (List.length row)); try reflexivity; lia.
Qed.

Lemma index_firstn {A} (xs : list A) (n k : nat) :
  k < n -> index (firstn n xs) k = index xs k.
Proof.
  intros Hk. unfold index. rewrite nth_error_firstn.
  destruct (Nat.ltb_spec k n); [reflexivity | lia].
Qed.

(** The line [display_summary_table] prints for a non-empty row. *)
Lemma summary_row_cons (row0 : string) (rest o : list string) :
  summary_row (row0 :: rest) o = (Ok tt, app o [summary_line row0 (row0 :: rest)]).
Proof. reflexivity. Qed.

Lemma summary_loop_nonempty (data : list (list string)) (o : list string) :
  Forall (fun r => r <> []) data ->
  for_each data summary_row o
  = (Ok tt, app o (map (fun r => summary_line (hd EmptyString r) r) data)).
Proof.
  intros H. revert o; induction H as [|r data Hr _ IH]; intros o; simpl.
  - rewrite app_nil_r. reflexivity.
  - destruct r as [|row0 rest]; [contradiction|].
    unfold bind at 1. rewrite summary_row_cons, IH, <- app_assoc. reflexivity.
Qed.

(** X1: when the parsed file has fewer than two rows, or its first row is
    empty, reading [rows[0][0]] or [rows[1]] raises [IndexError]: [main]
    prints only the error line and exits with status 1. *)
Theorem main_too_few_rows (fs : file_system) (f : string) (details : bool)
    (rows : list (list string)) (H : fs f = Ok rows)
    (Hc : List.length rows < 2 \/ hd [] rows = []) :
  main fs f details = (["Error processing file: list index out of range"], 1%Z).
Proof.
  unfold main, main_body, read_qceff_table, bind. rewrite H.
  destruct rows as [|r0 [|r1 rest]]; simpl in Hc.
  - reflexivity.
  - destruct r0; reflexivity.
  - destruct Hc as [Hc|Hc]; [lia|]. subst r0. reflexivity.
Qed.

Lemma main_too_few_rows_witness :
  sample_fs [["QCEFF table version: 1"]] "t.csv" = Ok [["QCEFF table version: 1"]] /\
  main (sample_fs [["QCEFF table version: 1"]]) "t.csv" true
  = (["Error processing file: list index out of range"], 1%Z).
Proof.
  assert (H : sample_fs [["QCEFF table version: 1"]] "t.csv"
              = Ok [["QCEFF table version: 1"]]) by reflexivity.
  split; [exact H|].
  apply (main_too_few_rows _ _ true _ H). left. simpl. lia.
Defined.

(** [read_qceff_table] on a file with at least two rows and a non-empty
    first row. *)
Lemma read_qceff_table_success (fs : file_system) (f v : string)
    (r0 hdr : list string) (data : list (list string)) (o : list string)
    (H : fs f = Ok ((v :: r0) :: hdr :: data)) :
  read_qceff_table fs f o = (Ok (mk_table v hdr data), o).
Proof. unfold read_qceff_table, bind. rewrite H. reflexivity. Qed.

(** X3: a summary line depends only on the first 21 fields of its row:
    fields after [obs_inc_info] (index 20) never show in the summary. *)
Theorem summary_line_first_21_fields (row0 : string) (row : list string) :
  summary_line row0 row = summary_line row0 (firstn 21 row).
Proof.
  unfold summary_line. rewrite !field_or_firstn by lia. reflexivity.
Qed.

(** X4: every summary line is at least 144 characters wide (the column
    widths 30, 30, 30, 30 and 20 and four separating spaces), and the
    obs_inc_info label never exceeds its 20-character column. *)
Theorem summary_line_width (row0 : string) (row : list string) :
  144 <= String.length (summary_line row0 row) /\
  String.length (truncate_label (field_or row 20 "N/A")) <= 20.
Proof.
  split; [apply summary_line_length|].
  destruct (Nat.ltb_spec 20 (String.length (field_or row 20 "N/A"))) as [Hl|Hl].
  - rewrite truncate_label_long by exact Hl.
    rewrite string_app_length, slice_to_length by lia. simpl. lia.
  - rewrite truncate_label_short by exact Hl. exact Hl.
Qed.

(** X5: when no data row is empty, [display_summary_table] prints its
    five header lines and then exactly one line per data row, in input
    order. *)
Theorem display_summary_table_rows (data : list (list string)) (o : list string)
    (H : Forall (fun r => r <> []) data) :
  display_summary_table data o
  = (Ok tt, app o (app summary_header
                    (map (fun r => summary_line (hd EmptyString r) r) data))).
Proof.
  unfold display_summary_table, bind at 1. rewrite for_each_print.
  rewrite summary_loop_nonempty by exact H. rewrite app_assoc. reflexivity.
Qed.

Lemma display_summary_table_rows_witness :
  Forall (fun r => r <> []) [["QTY_A"]; ["QTY_B"; "x"]] /\
  display_summary_table [["QTY_A"]; ["QTY_B"; "x"]] []
  = (Ok tt, app [] (app summary_header
                     (map (fun r => summary_line (hd EmptyString r) r)
                          [["QTY_A"]; ["QTY_B"; "x"]]))).
Proof.
  assert (H : Forall (fun r => r <> []) [["QTY_A"]; ["QTY_B"; "x"]])
    by (repeat constructor; discriminate).
  split; [exact H | exact (display_summary_table_rows _ [] H)].
Defined.

(** X6: an empty data row stops the summary table: the header and the
    lines of the rows before it are printed, then [IndexError] is raised
    and no later row is shown. *)
Theorem display_summary_table_empty_row (pre post : list (list string))
    (o : list string) (H : Forall (fun r => r <> []) pre) :
  display_summary_table (app pre ([] :: post)) o
  = (Raised IndexError,
     app o (app summary_header (map (fun r => summary_line (hd EmptyString r) r) pre))).
Proof.
  unfold display_summary_table, bind at 1. rewrite for_each_print.
  rewrite app_assoc. generalize (app o summary_header) as o'.
  induction H as [|r pre Hr _ IH]; intros o'; simpl.
  - rewrite app_nil_r. reflexivity.
  - destruct r as [|row0 rest]; [contradiction|].
    unfold bind at 1. rewrite summary_row_cons, IH, <- app_assoc. reflexivity.
Qed.

Lemma display_summary_table_empty_row_witness :
  Forall (fun r => r <> []) [["QTY_A"]] /\
  display_summary_table (app [["QTY_A"]] ([] :: [["QTY_B"]])) []
  = (Raised IndexError,
     app [] (app summary_header
               (map (fun r => summary_line (hd EmptyString r) r) [["QTY_A"]]))).
Proof.
  assert (H : Forall (fun r => r <> []) [["QTY_A"]]) by (repeat constructor; discriminate).
  split; [exact H | exact (display_summary_table_empty_row _ _ [] H)].
Defined.

(** X7: the detail dump of a row reads only its first 25 fields: extra
    fields after [obs_inc_info]'s upper bound (index 24) change nothing. *)
Theorem display_quantity_info_first_25_fields (q : string) (row o : list string) :
  display_quantity_info q row o = display_quantity_info q (firstn 25 row) o.
Proof.
  unfold display_quantity_info, field_line.
  rewrite !(index_firstn row 25) by lia. reflexivity.
Qed.

Lemma keeps_display_quantity_info (q : string) (row : list string) :
  keeps (fun l => plain_line l = true) (display_quantity_info q row).
Proof.
  unfold display_quantity_info, field_line.
  repeat (apply keeps_bind; [|intros]);
    first [apply keeps_index | apply keeps_print; reflexivity].
Qed.

Lemma dqi_full_row (q : string) (row : list string) :
  25 <= List.length row ->
  fst (display_quantity_info q row []) = Ok tt /\
  List.length (snd (display_quantity_info q row [])) = 32.
Proof.
  intros H.
  do 25 (destruct row as [|? row]; [simpl in H; lia|]).
  split; reflexivity.
Qed.

(** X8: the detail dump of a row of at least 25 fields succeeds and
    prints exactly 32 lines: the banner with the full quantity name, the
    five section titles and the 24 fields, from [row[1]] (first field
    line) to [row[24]] (last line), verbatim. *)
Theorem display_quantity_info_full_row (q : string) (row o : list string)
    (H : 25 <= List.length row) :
  exists L,
    display_quantity_info q row o = (Ok tt, app o L) /\
    List.length L = 32 /\
    nth 1 L EmptyString = "QUANTITY: " ++ q /\
    nth 4 L EmptyString = "  Bounded Below: " ++ nth 1 row EmptyString /\
    last L EmptyString = "  Upper Bound:   " ++ nth 24 row EmptyString.
Proof.
  exists (snd (display_quantity_info q row [])).
  destruct (dqi_full_row q row H) as [Hok Hlen].
  rewrite framed_display_quantity_info, Hok.
  split; [reflexivity | split; [exact Hlen|]].
  do 25 (destruct row as [|? row]; [simpl in H; lia|]).
  split; [reflexivity | split; reflexivity].
Qed.

Lemma display_quantity_info_full_row_witness :
  25 <= List.length (map (fun _ => "x") (seq 0 25)) /\
  exists L,
    display_quantity_info "QTY_A" (map (fun _ => "x") (seq 0 25)) [] = (Ok tt, app [] L) /\
    List.length L = 32 /\
    nth 1 L EmptyString = "QUANTITY: " ++ "QTY_A" /\
    nth 4 L EmptyString
    = "  Bounded Below: " ++ nth 1 (map (fun _ => "x") (seq 0 25)) EmptyString /\
    last L EmptyString
    = "  Upper Bound:   " ++ nth 24 (map (fun _ => "x") (seq 0 25)) EmptyString.
Proof.
  assert (H : 25 <= List.length (map (fun _ => "x") (seq 0 25))) by (simpl; lia).
  split; [exact H | exact (display_quantity_info_full_row "QTY_A" _ [] H)].
Defined.

(** X9: the detail dump of a row of [n] fields, [1 <= n < 25], raises
    [IndexError] at [row[n]], the first missing field.  What it prints
    before is the dump of any completion of the row to 25 fields or more,
    cut after the banner (3 lines), the titles of the sections up to the
    one of field [n] and the [n - 1] lines of [row[1]] .. [row[n-1]]. *)
Theorem display_quantity_info_short_row (q : string) (row rest o : list string)
    (H1 : 1 <= List.length row) (H2 : List.length row < 25)
    (H3 : 25 <= List.length row + List.length rest) :
  display_quantity_info q row o
  = (Raised IndexError,
     app o (firstn (3 + section_of (List.length row) + (List.length row - 1))
                   (snd (display_quantity_info q (app row rest) [])))).
Proof.
  rewrite framed_display_quantity_info.
  do 25 (destruct row as [|? row];
         [simpl in H1, H2, H3;
          first [lia
                | repeat first [reflexivity
                               | destruct rest as [|? rest]; [simpl in H3; lia |]]] |]).
  simpl in H2. lia.
Qed.

Lemma display_quantity_info_short_row_witness :
  1 <= List.length ["QTY_X"; "TRUE"] /\ List.length ["QTY_X"; "TRUE"] < 25 /\
  25 <= List.length ["QTY_X"; "TRUE"] + List.length (repeat "x" 23) /\
  display_quantity_info "QTY_X" ["QTY_X"; "TRUE"] []
  = (Raised IndexError,
     app [] (firstn (3 + section_of (List.length ["QTY_X"; "TRUE"])
                       + (List.length ["QTY_X"; "TRUE"] - 1))
               (snd (display_quantity_info "QTY_X" (app ["QTY_X"; "TRUE"] (repeat "x" 23)) [])))).
Proof.
  assert (H1 : 1 <= List.length ["QTY_X"; "TRUE"]) by (simpl; lia).
  assert (H2 : List.length ["QTY_X"; "TRUE"] < 25) by (simpl; lia).
  assert (H3 : 25 <= List.length ["QTY_X"; "TRUE"] + List.length (repeat "x" 23))
    by (simpl; lia).
  split; [exact H1 | split; [exact H2 | split; [exact H3 |
    exact (display_quantity_info_short_row "QTY_X" _ _ [] H1 H2 H3)]]].
Defined.

Lemma keeps_for_each_print (P : string -> Prop) (ls : list string) :
  Forall P ls -> keeps P (for_each ls print).
Proof.
  induction 1 as [|l ls Hl _ IH]; simpl.
  - apply keeps_ret.
  - apply keeps_bind; [apply keeps_print; exact Hl | intros _; exact IH].
Qed.

Lemma summary_header_plain : Forall (fun l => plain_line l = true) summary_header.
Proof. unfold summary_header. repeat constructor. Qed.

Lemma keeps_summary_row (row : list string) :
  keeps (fun l => plain_line l = true) (summary_row row).
Proof.
  unfold summary_row. apply keeps_bind; [apply keeps_index|intros row0].
  apply keeps_print, plain_line_long.
  pose proof (summary_line_length row0 row). lia.
Qed.

Lemma keeps_display_summary_table (data : list (list string)) :
  keeps (fun l => plain_line l = true) (display_summary_table data).
Proof.
  unfold display_summary_table. apply keeps_bind.
  - apply keeps_for_each_print, summary_header_plain.
  - intros _. apply keeps_for_each, keeps_summary_row.
Qed.

Lemma keeps_read_qceff_table (P : string -> Prop) (fs : file_system) (f : string) :
  keeps P (read_qceff_table fs f).
Proof.
  unfold read_qceff_table. apply keeps_bind.
  - destruct (fs f); [apply keeps_ret | apply keeps_raise].
  - intros rows. auto with output.
Qed.

Lemma keeps_main_body_no_details (fs : file_system) (f : string) :
  keeps (fun l => plain_line l = true) (main_body fs f false).
Proof.
  unfold main_body. apply keeps_bind; [apply keeps_read_qceff_table | intros t].
  repeat (apply keeps_bind; [first [apply keeps_print; reflexivity
                                   | apply keeps_display_summary_table] | intros _]).
  apply keeps_ret.
Qed.

(** X10: without [--details], whatever the file holds and whether or not
    the run fails, no printed line is the [DETAILED INFORMATION] title or
    the [END OF REPORT] line. *)
Theorem main_no_detail_section (fs : file_system) (f : string) :
  count_lines "DETAILED INFORMATION" (fst (main fs f false)) = 0 /\
  count_lines "END OF REPORT" (fst (main fs f false)) = 0.
Proof.
  apply count_lines_plain.
  pose proof (keeps_main_body_no_details fs f [] (Forall_nil _)) as H.
  unfold main. destruct (main_body fs f false []) as [[u|e] out]; simpl in *.
  - exact H.
  - destruct e; apply Forall_app; (split; [exact H | constructor; [reflexivity | constructor]]).
Qed.

Lemma bind_ok {A B} (m : M A) (k : A -> M B) (o o' : list string) (a : A) :
  m o = (Ok a, o') -> bind m k o = k a o'.
Proof. intros H. unfold bind. rewrite H. reflexivity. Qed.

Lemma bind_raised {A B} (m : M A) (k : A -> M B) (o o' : list string) (e : exn) :
  m o = (Raised e, o') -> bind m k o = (Raised e, o').
Proof. intros H. unfold bind. rewrite H. reflexivity. Qed.

Ltac run_print := erewrite bind_ok by reflexivity; cbv beta.

(** X11: without [--details], on a readable table whose data rows are all
    non-empty, [main] prints the title, the file name, the version, the
    summary header and one summary line per data row, in order, and
    exits with status 0. *)
Theorem main_summary_only (fs : file_system) (f v : string)
    (r0 hdr : list string) (data : list (list string))
    (H : fs f = Ok ((v :: r0) :: hdr :: data))
    (Hd : Forall (fun r => r <> []) data) :
  main fs f false =
  (app ["QCEFF Table Display"; "File: " ++ f; "Version: " ++ v]
     (app summary_header (map (fun r => summary_line (hd EmptyString r) r) data)),
   0%Z).
Proof.
  unfold main, main_body.
  rewrite (bind_ok _ _ [] [] _ (read_qceff_table_success fs f v r0 hdr data [] H)).
  cbv beta. run_print. run_print. run_print.
  rewrite (bind_ok _ _ _ _ _ (display_summary_table_rows data _ Hd)).
  reflexivity.
Qed.

Lemma main_summary_only_witness :
  sample_fs [["v1"]; ["h"]; ["QTY_A"; "x"]] "t.csv" = Ok [["v1"]; ["h"]; ["QTY_A"; "x"]] /\
  Forall (fun r => r <> []) [["QTY_A"; "x"]] /\
  main (sample_fs [["v1"]; ["h"]; ["QTY_A"; "x"]]) "t.csv" false =
  (app ["QCEFF Table Display"; "File: " ++ "t.csv"; "Version: " ++ "v1"]
     (app summary_header (map (fun r => summary_line (hd EmptyString r) r)
                             [["QTY_A"; "x"]])), 0%Z).
Proof.
  assert (H : sample_fs [["v1"]; ["h"]; ["QTY_A"; "x"]] "t.csv"
              = Ok [["v1"]; ["h"]; ["QTY_A"; "x"]]) by reflexivity.
  assert (Hd : Forall (fun r => r <> []) [["QTY_A"; "x"]])
    by (repeat constructor; discriminate).
  split; [exact H | split; [exact Hd | exact (main_summary_only _ _ _ _ _ _ H Hd)]].
Defined.

Lemma details_loop (data : list (list string)) :
  Forall (fun r => 25 <= List.length r) data ->
  forall o, exists L,
    for_each data
      (fun row => qty_name <- index row 0 ;; display_quantity_info qty_name row) o
    = (Ok tt, app o L) /\
    List.length L = 32 * List.length data /\
    Forall (fun l => plain_line l = true) L.
Proof.
  induction 1 as [|r data Hr _ IH]; intros o; simpl.
  - exists []. rewrite app_nil_r. split; [reflexivity | split; constructor].
  - destruct r as [|r0 rest]; [simpl in Hr; lia|].
    destruct (dqi_full_row r0 (r0 :: rest) Hr) as [Hok Hlen].
    set (L1 := snd (display_quantity_info r0 (r0 :: rest) [])).
    assert (E1 : bind (index (r0 :: rest) 0)
                   (fun qty_name => display_quantity_info qty_name (r0 :: rest)) o
                 = (Ok tt, app o L1)).
    { unfold bind at 1. simpl. rewrite framed_display_quantity_info, Hok. reflexivity. }
    rewrite (bind_ok _ _ _ _ _ E1).
    destruct (IH (app o L1)) as [L2 [E2 [Hlen2 Hpl2]]].
    exists (app L1 L2). rewrite E2, app_assoc.
    split; [reflexivity | split].
    + rewrite length_app, Hlen2. unfold L1. rewrite Hlen. simpl. lia.
    + apply Forall_app. split; [|exact Hpl2].
      exact (keeps_display_quantity_info r0 (r0 :: rest) [] (Forall_nil _)).
Qed.

(** X12: with [--details], on a readable table whose data rows all have
    at least 25 fields, [main] exits with status 0 after printing the
    [DETAILED INFORMATION] title once and [END OF REPORT] once, and
    14 + 33 n lines for n data rows: 3 title lines, the 5 header lines of
    the summary, one summary line and one 32-line detail block per row,
    and the 3 lines of each of the two detail banners. *)
Theorem main_with_details (fs : file_system) (f v : string)
    (r0 hdr : list string) (data : list (list string))
    (H : fs f = Ok ((v :: r0) :: hdr :: data))
    (Hd : Forall (fun r => 25 <= List.length r) data) :
  exists out,
    main fs f true = (out, 0%Z) /\
    count_lines "DETAILED INFORMATION" out = 1 /\
    count_lines "END OF REPORT" out = 1 /\
    List.length out = 14 + 33 * List.length data.
Proof.
  assert (Hne : Forall (fun r => r <> []) data).
  { refine (Forall_impl _ _ Hd). intros r Hr E. subst r. simpl in Hr. lia. }
  assert (Hs : Forall (fun l => plain_line l = true)
                 (map (fun r => summary_line (hd EmptyString r) r) data)).
  { apply Forall_forall. intros l Hl. apply in_map_iff in Hl as [r [<- _]].
    apply plain_line_long. pose proof (summary_line_length (hd EmptyString r) r). lia. }
  unfold main, main_body.
  rewrite (bind_ok _ _ [] [] _ (read_qceff_table_success fs f v r0 hdr data [] H)).
  cbv beta. run_print. run_print. run_print.
  erewrite (bind_ok _ _ _ _ _ (display_summary_table_rows data _ Hne)).
  cbv beta iota. run_print. run_print. run_print.
  match goal with
  | |- context [bind (for_each _ _) _ ?o] =>
      destruct (details_loop data Hd o) as [L [E [Hlen Hpl]]]
  end.
  rewrite (bind_ok _ _ _ _ _ E). cbv beta. run_print. run_print.
  eexists. split; [reflexivity|].
  destruct (count_lines_plain _ Hs) as [S1 S2].
  destruct (count_lines_plain _ summary_header_plain) as [S3 S4].
  destruct (count_lines_plain _ Hpl) as [S5 S6].
  rewrite !count_lines_app, S1, S2, S3, S4, S5, S6.
  split; [reflexivity | split; [reflexivity |]].
  rewrite !length_app, length_map, Hlen. simpl. lia.
Qed.

Lemma main_with_details_witness :
  sample_fs [["v1"]; ["h"]; map (fun _ => "x") (seq 0 25)] "t.csv"
  = Ok [["v1"]; ["h"]; map (fun _ => "x") (seq 0 25)] /\
  Forall (fun r => 25 <= List.length r) [map (fun _ => "x") (seq 0 25)] /\
  exists out,
    main (sample_fs [["v1"]; ["h"]; map (fun _ => "x") (seq 0 25)]) "t.csv" true
    = (out, 0%Z) /\
    count_lines "DETAILED INFORMATION" out = 1 /\
    count_lines "END OF REPORT" out = 1 /\
    List.length out = 14 + 33 * List.length [map (fun _ => "x") (seq 0 25)].
Proof.
  assert (H : sample_fs [["v1"]; ["h"]; map (fun _ => "x") (seq 0 25)] "t.csv"
              = Ok [["v1"]; ["h"]; map (fun _ => "x") (seq 0 25)]) by reflexivity.
  assert (Hd : Forall (fun r => 25 <= List.length r) [map (fun _ => "x") (seq 0 25)])
    by (repeat constructor).
  split; [exact H | split; [exact Hd | exact (main_with_details _ _ _ _ _ _ H Hd)]].
Defined.

(** X13: a distribution other than the normal one whose flag and bound
    fields are all empty (or absent from the row, which defaults them to
    the empty string) renders as its label followed by [(-inf,inf)]:
    open brackets and infinite bounds. *)
Theorem format_dist_missing_bounds (d : string) (Hn : ~ is_normal d) :
  format_dist d EmptyString EmptyString EmptyString EmptyString
  = truncate_label (dist_label d) ++ " (-inf,inf)".
Proof. rewrite (format_dist_bracketed _ _ _ _ _ Hn). reflexivity. Qed.

Lemma format_dist_missing_bounds_witness :
  ~ is_normal "GAMMA_DISTRIBUTION" /\
  format_dist "GAMMA_DISTRIBUTION" EmptyString EmptyString EmptyString EmptyString
  = truncate_label (dist_label "GAMMA_DISTRIBUTION") ++ " (-inf,inf)".
Proof.
  assert (Hn : ~ is_normal "GAMMA_DISTRIBUTION")
    by (unfold is_normal; vm_compute; discriminate).
  split; [exact Hn | exact (format_dist_missing_bounds _ Hn)].
Defined.

(** X14: for a non-empty row of at most 5 fields (no probit field at
    all), each of the three probit columns shows [N/A (-inf,inf)] and the
    obs_inc_info column shows [N/A]. *)
Theorem summary_line_no_probit_fields (row0 : string) (rest : list string)
    (H : List.length (row0 :: rest) <= 5) :
  summary_line row0 (row0 :: rest) =
  Py.ljust 30 (Py.replace "QTY_" EmptyString row0) ++ " "
  ++ Py.ljust 30 "N/A (-inf,inf)" ++ " " ++ Py.ljust 30 "N/A (-inf,inf)" ++ " "
  ++ Py.ljust 30 "N/A (-inf,inf)" ++ " " ++ Py.ljust 20 "N/A".
Proof.
  unfold summary_line. rewrite !field_or_short by lia. reflexivity.
Qed.

Lemma summary_line_no_probit_fields_witness :
  List.length ["QTY_A"; "TRUE"] <= 5 /\
  summary_line "QTY_A" ["QTY_A"; "TRUE"] =
  Py.ljust 30 (Py.replace "QTY_" EmptyString "QTY_A") ++ " "
  ++ Py.ljust 30 "N/A (-inf,inf)" ++ " " ++ Py.ljust 30 "N/A (-inf,inf)" ++ " "
  ++ Py.ljust 30 "N/A (-inf,inf)" ++ " " ++ Py.ljust 20 "N/A".
Proof.
  assert (H : List.length ["QTY_A"; "TRUE"] <= 5) by (simpl; lia).
  split; [exact H | exact (summary_line_no_probit_fields "QTY_A" ["TRUE"] H)].
Defined.

Lemma framed_display_summary_table (ds : list (list string)) :
  framed (display_summary_table ds).
Proof. unfold display_summary_table. auto with output. Qed.

Lemma framed_details_branch (ds : list (list string)) :
  framed (print (Py.nl (Py.rep 80 "=")) ;;
          print "DETAILED INFORMATION" ;;
          print (Py.rep 80 "=") ;;
          for_each ds
            (fun row => qty_name <- index row 0 ;; display_quantity_info qty_name row) ;;
          print (Py.nl (Py.rep 80 "=")) ;;
          print "END OF REPORT" ;;
          print (Py.rep 80 "=")).
Proof. repeat (apply framed_bind; intros); auto with output. Qed.

(** X15: once the table has been read, [main] starts its output with the
    title line, the file name and the version, whatever happens next
    (with or without [--details], successful run or error). *)
Theorem main_intro_lines (fs : file_system) (f v : string)
    (r0 hdr : list string) (ds : list (list string)) (details : bool)
    (H : fs f = Ok ((v :: r0) :: hdr :: ds)) :
  exists rest,
    fst (main fs f details)
    = "QCEFF Table Display" :: ("File: " ++ f) :: ("Version: " ++ v) :: rest.
Proof.
  unfold main, main_body.
  rewrite (bind_ok _ _ [] [] _ (read_qceff_table_success fs f v r0 hdr ds [] H)).
  cbv beta. run_print. run_print. run_print.
  match goal with
  | |- context [bind (display_summary_table ?x) ?k ?o] =>
      assert (Hk : framed (bind (display_summary_table x) k))
        by (apply framed_bind; [apply framed_display_summary_table |
              intros []; destruct details;
              [apply framed_details_branch | apply framed_ret]]);
      rewrite (Hk o)
  end.
  match goal with
  | |- context [fst ?t] => destruct t as [[u|e] l]
  end.
  - eexists. reflexivity.
  - destruct e; eexists; simpl; reflexivity.
Qed.

Lemma main_intro_lines_witness :
  sample_fs [["v1"]; ["h"]; ["QTY_A"]] "t.csv" = Ok [["v1"]; ["h"]; ["QTY_A"]] /\
  exists rest,
    fst (main (sample_fs [["v1"]; ["h"]; ["QTY_A"]]) "t.csv" true)
    = "QCEFF Table Display" :: ("File: " ++ "t.csv") :: ("Version: " ++ "v1") :: rest.
Proof.
  assert (H : sample_fs [["v1"]; ["h"]; ["QTY_A"]] "t.csv" = Ok [["v1"]; ["h"]; ["QTY_A"]])
    by reflexivity.
  split; [exact H | exact (main_intro_lines _ _ _ _ _ _ true H)].
Defined.

(** X16: [--details] only adds output after the summary: when the run
    without the flag succeeds, the output with the flag starts with the
    whole output without it (the detail dump comes after a complete
    summary table, even if it fails later). *)
Theorem main_details_extends_summary (fs : file_system) (f : string)
    (out : list string) (H : main fs f false = (out, 0%Z)) :
  exists rest, fst (main fs f true) = app out rest.
Proof.
  unfold main, main_body in *. unfold bind at 1 in H. unfold bind at 1.
  destruct (read_qceff_table fs f []) as [[t|e] l].
  2: destruct e; discriminate H.
  cbv beta in *.
  do 3 (erewrite bind_ok in H by reflexivity; cbv beta in H; run_print).
  match goal with
  | |- context [bind (display_summary_table ?x) _ ?o] =>
      pose proof (framed_display_summary_table x o) as Fr;
      destruct (display_summary_table x []) as [[u|e] l1]
  end.
  2: { match type of H with
       | context [bind (display_summary_table ?x) ?k ?o] =>
           rewrite (bind_raised (display_summary_table x) k o _ _ Fr) in H
       end.
       destruct e; discriminate H. }
  match type of H with
  | context [bind (display_summary_table ?x) ?k ?o] =>
      rewrite (bind_ok (display_summary_table x) k o _ _ Fr) in H
  end.
  match goal with
  | |- context [bind (display_summary_table ?x) ?k ?o] =>
      rewrite (bind_ok (display_summary_table x) k o _ _ Fr)
  end.
  cbv beta iota in H |- *.
  unfold ret in H. injection H as <-.
  rewrite framed_details_branch.
  match goal with
  | |- context [fst ?t] => destruct t as [[v|e] l2]
  end.
  - eexists. reflexivity.
  - destruct e; simpl; eexists; rewrite <- app_assoc; reflexivity.
Qed.

Lemma main_details_extends_summary_witness :
  main (sample_fs [["v1"]; ["h"]; ["QTY_A"; "x"]]) "t.csv" false
  = (fst (main (sample_fs [["v1"]; ["h"]; ["QTY_A"; "x"]]) "t.csv" false), 0%Z) /\
  exists rest,
    fst (main (sample_fs [["v1"]; ["h"]; ["QTY_A"; "x"]]) "t.csv" true)
    = app (fst (main (sample_fs [["v1"]; ["h"]; ["QTY_A"; "x"]]) "t.csv" false)) rest.
Proof.
  assert (H : main (sample_fs [["v1"]; ["h"]; ["QTY_A"; "x"]]) "t.csv" false
              = (fst (main (sample_fs [["v1"]; ["h"]; ["QTY_A"; "x"]]) "t.csv" false), 0%Z))
    by (vm_compute; reflexivity).
  split; [exact H | exact (main_details_extends_summary _ _ _ H)].
Defined.
